(** * whisper-cli Python wrapper: installer and launcher

    A shallow embedding of the two Python files of the wrapper package,

      - [python-wrapper/setup.py]           (class [WhisperInstall]), and
      - [python-wrapper/whisper_cli/cli.py] (functions [get_whisper_cli_path]
        and [main]),

    over a small model of the part of the Python runtime they use: a
    filesystem, exceptions, [print], and the spawning of a child process. *)

From Stdlib Require Import ZArith Ascii String List Bool Lia.
From stdpp Require Import base option gmap strings list fin_maps.

Local Open Scope string_scope.
Local Open Scope Z_scope.

(** ** Paths

    A path is the list of its components, *innermost first*: the head of
    the list is the final component and the tail is the parent directory,
    so [/usr/lib/x] is ["x"; "lib"; "usr"] and the root is [[]].  Paths are
    absolute and normalised; joining a relative name to a directory is a
    cons. *)

Abbreviation path := (list string).

(** [p / name] of pathlib, [os.path.join p name] for a relative [name]. *)
Definition joinpath (p : path) (name : string) : path := name :: p.

Notation "p </> c" := (joinpath p c) (at level 40, left associativity).

(** [Path.parent], [os.path.dirname]; the root is its own parent. *)
Definition parent (p : path) : path := tail p.

(** [os.path.basename]. *)
Definition basename (p : path) : string :=
  match p with
  | [] => ""
  | c :: _ => c
  end.

(** ** Strings *)

(** [str.lower] on the ASCII range, which decides the comparisons of
    [system] with the three ASCII identifiers. *)
Definition ascii_lower (c : ascii) : ascii :=
  let n := nat_of_ascii c in
  if (Nat.leb 65 n && Nat.leb n 90)%bool then ascii_of_nat (n + 32) else c.

Fixpoint lower (s : string) : string :=
  match s with
  | EmptyString => EmptyString
  | String c r => String (ascii_lower c) (lower r)
  end.

(** [s.startswith(p)]. *)
Definition startswith (s p : string) : bool := String.prefix p s.

(** ** Filesystem *)

(** Permission bits 0o777 and 0o755. *)
Definition mode_0o777 : Z := 511.
Definition mode_0o755 : Z := 493.

Inductive node : Type :=
| Dir (mode : Z)
| File (content : list Byte.byte) (mode : Z) (mtime : Z).

Abbreviation filesystem := (gmap (list string) node).

(** The root directory always exists. *)
Definition node_at (fs : filesystem) (p : path) : option node :=
  match p with
  | [] => Some (Dir mode_0o755)
  | _ => fs !! p
  end.

Definition is_dir (fs : filesystem) (p : path) : bool :=
  match node_at fs p with
  | Some (Dir _) => true
  | _ => false
  end.

Definition path_exists (fs : filesystem) (p : path) : bool :=
  match node_at fs p with
  | Some _ => true
  | None => false
  end.

(** ** Exceptions and outcomes *)

Inductive errno : Type :=
| ENOENT | EEXIST | ENOTDIR | EISDIR | EACCES | EROFS | ENOSPC | EIO.

Inductive exn : Type :=
| OSError (e : errno)
| SameFileError
| CalledProcessError (returncode : Z) (cmd : list string)
| SystemExit (code : Z).

(** [except Exception] catches everything but [SystemExit], which derives
    from [BaseException] only. *)
Definition is_Exception (e : exn) : bool :=
  match e with
  | SystemExit _ => false
  | _ => true
  end.

Inductive outcome (A : Type) : Type :=
| Return (a : A)
| Raise (e : exn).

Arguments Return {A} a.
Arguments Raise {A} e.

(** ** Observable events *)

(** The library calls that touch the filesystem. *)
Inductive call : Type :=
| Mkdir (p : path)                 (* Path.mkdir(parents=True, exist_ok=True) *)
| Exists (p : path)                (* Path.exists / os.path.exists *)
| Copy2 (src dst : path)           (* shutil.copy2 *)
| Chmod (p : path) (mode : Z).     (* os.chmod *)

(** One constructor per [print] statement of the two files, carrying the
    values interpolated into the line. *)
Inductive message : Type :=
| MsgUnsupportedPlatform (system : string)   (* setup.py:49 *)
| MsgUseNpm                                  (* setup.py:50 *)
| MsgDownloading (system : string)           (* setup.py:59 *)
| MsgCopiedLocal (binary_path : path)        (* setup.py:69 *)
| MsgLocalNotFound                           (* setup.py:71 *)
| MsgBuildStandalone                         (* setup.py:72 *)
| MsgInstalled                               (* setup.py:79 *)
| MsgUsage                                   (* setup.py:80 *)
| MsgDownloadFailed (e : exn)                (* setup.py:83 *)
| MsgInstallManually                         (* setup.py:84 *)
| MsgExecutableNotFound.                     (* cli.py:23 *)

Inductive event : Type :=
| EPrint (m : message)
| ECall (c : call)
| ESpawn (argv : list string).

Definition is_write (ev : event) : bool :=
  match ev with
  | ECall (Mkdir _) | ECall (Copy2 _ _) | ECall (Chmod _ _) => true
  | _ => false
  end.


Definition is_spawn (ev : event) : bool :=
  match ev with
  | ESpawn _ => true
  | _ => false
  end.

Definition is_print (ev : event) : bool :=
  match ev with
  | EPrint _ => true
  | _ => false
  end.

(** ** The monad of Python statements

    A statement transforms the world (the filesystem and the trace of
    events so far, oldest first) and either returns a value or raises. *)

Record world : Type := World { files : filesystem; trace : list event }.

Definition M (A : Type) : Type := world -> outcome A * world.

Definition ret {A} (a : A) : M A := fun w => (Return a, w).

Definition raise {A} (e : exn) : M A := fun w => (Raise e, w).

Definition bind {A B} (m : M A) (k : A -> M B) : M B :=
  fun w =>
    match m w with
    | (Return a, w') => k a w'
    | (Raise e, w') => (Raise e, w')
    end.

Declare Scope py_scope.
Delimit Scope py_scope with py.
Notation "x <- m ;; k" := (bind m (fun x => k))
  (at level 100, m at next level, k at level 200, right associativity,
   only parsing) : py_scope.
Notation "m ;; k" := (bind m (fun _ => k))
  (at level 100, k at level 200, right associativity, only parsing) : py_scope.

(** [try: body except Exception as e: handler e]. *)
Definition try_except {A} (body : M A) (handler : exn -> M A) : M A :=
  fun w =>
    match body w with
    | (Raise e, w') => if is_Exception e then handler e w' else (Raise e, w')
    | r => r
    end.

Definition emit (ev : event) : M unit :=
  fun w => (Return tt, World (files w) (trace w ++ [ev])).

Definition print (m : message) : M unit := emit (EPrint m).

(** [sys.exit(code)]. *)
Definition sys_exit {A} (code : Z) : M A := raise (SystemExit code).

(** Exit status of the interpreter: 0 when the entry point returns, the
    code of a [SystemExit], and 1 after any other uncaught exception. *)
Definition exit_status {A} (o : outcome A) : Z :=
  match o with
  | Return _ => 0
  | Raise (SystemExit code) => code
  | Raise _ => 1
  end.

(** Run a statement on a filesystem with an empty trace. *)
Definition run {A} (m : M A) (fs : filesystem) : outcome A * world :=
  m (World fs []).

(** ** The host

    What the operating system contributes beyond the filesystem contents:
    the process umask, and the errors it may inject into a filesystem call
    for reasons the model does not track (permissions, a read-only or full
    volume, an I/O error).  A call that fails this way leaves the modelled
    filesystem as it was. *)

Record host : Type := Host {
  umask : Z;
  fault : call -> option errno
}.

(** A library call on the filesystem: it is recorded in the trace, then
    either replaces the filesystem or raises. *)
Definition fs_call (c : call) (f : filesystem -> outcome filesystem) : M unit :=
  fun w =>
    let t := (trace w ++ [ECall c])%list in
    match f (files w) with
    | Return fs' => (Return tt, World fs' t)
    | Raise e => (Raise e, World (files w) t)
    end.

(** A library query on the filesystem. *)
Definition fs_query {A} (c : call) (f : filesystem -> A) : M A :=
  fun w => (Return (f (files w)), World (files w) (trace w ++ [ECall c])%list).

Section Runtime.

Variable h : host.

(** [os.mkdir(p)]: one directory, whose parent must be a directory. *)
Definition os_mkdir (p : path) (fs : filesystem) : outcome filesystem :=
  match fault h (Mkdir p) with
  | Some e => Raise (OSError e)
  | None =>
    match p with
    | [] => Raise (OSError EEXIST)
    | _ :: up =>
      match node_at fs up with
      | None => Raise (OSError ENOENT)
      | Some (File _ _ _) => Raise (OSError ENOTDIR)
      | Some (Dir _) =>
        match fs !! p with
        | Some _ => Raise (OSError EEXIST)
        | None => Return (<[p := Dir (Z.ldiff mode_0o777 (umask h))]> fs)
        end
      end
    end
  end.

(** The clause [except OSError: if not exist_ok or not self.is_dir():
    raise] of [Path.mkdir], with [exist_ok=True]. *)
Definition unless_is_dir (p : path) (fs : filesystem) (e : exn)
  : outcome filesystem :=
  if is_dir fs p then Return fs else Raise e.

(** [Path.mkdir(parents=False, exist_ok=True)]: a missing parent is
    raised; any other error is swallowed when the path is a directory. *)
Definition Path_mkdir_leaf (p : path) (fs : filesystem) : outcome filesystem :=
  match os_mkdir p fs with
  | Return fs' => Return fs'
  | Raise (OSError ENOENT) => Raise (OSError ENOENT)
  | Raise e => unless_is_dir p fs e
  end.

(** [Path.mkdir(parents=True, exist_ok=True)], as pathlib does it: try
    the directory itself; when its parent is missing, make the parent
    the same way and try again. *)
Fixpoint Path_mkdir_parents (p : path) (fs : filesystem) {struct p}
  : outcome filesystem :=
  match os_mkdir p fs with
  | Return fs' => Return fs'
  | Raise (OSError ENOENT) =>
    match p with
    | [] => Raise (OSError ENOENT)
    | _ :: up =>
      match Path_mkdir_parents up fs with
      | Return fs' => Path_mkdir_leaf p fs'
      | Raise e => Raise e
      end
    end
  | Raise e => unless_is_dir p fs e
  end.

Definition Path_mkdir (p : path) : M unit :=
  fs_call (Mkdir p) (Path_mkdir_parents p).

(** [Path.exists], [os.path.exists]. *)
Definition Path_exists (p : path) : M bool :=
  fs_query (Exists p) (fun fs => path_exists fs p).

(** [os.path.samefile] as [shutil] uses it: false when [a] is missing. *)
Definition samefile (fs : filesystem) (a b : path) : bool :=
  path_exists fs a && bool_decide (a = b).

(** Where [shutil.copy2(src, dst)] writes: into [dst] when it is a
    directory. *)
Definition copy2_target (fs : filesystem) (src dst : path) : path :=
  if is_dir fs dst then dst </> basename src else dst.

(** [shutil.copy2(src, dst)]: contents, permission bits and times are
    copied. *)
Definition copy2 (src dst : path) (fs : filesystem) : outcome filesystem :=
  match fault h (Copy2 src dst) with
  | Some e => Raise (OSError e)
  | None =>
    let dst := copy2_target fs src dst in
    if samefile fs src dst then Raise SameFileError else
    match node_at fs src with
    | None => Raise (OSError ENOENT)
    | Some (Dir _) => Raise (OSError EISDIR)
    | Some (File content mode mtime) =>
      match node_at fs (parent dst), node_at fs dst with
      | None, _ => Raise (OSError ENOENT)
      | Some (File _ _ _), _ => Raise (OSError ENOTDIR)
      | Some (Dir _), Some (Dir _) => Raise (OSError EISDIR)
      | Some (Dir _), _ => Return (<[dst := File content mode mtime]> fs)
      end
    end
  end.

Definition shutil_copy2 (src dst : path) : M unit :=
  fs_call (Copy2 src dst) (copy2 src dst).

(** [os.chmod(p, mode)]. *)
Definition chmod (p : path) (mode : Z) (fs : filesystem) : outcome filesystem :=
  match fault h (Chmod p mode) with
  | Some e => Raise (OSError e)
  | None =>
    match node_at fs p with
    | None => Raise (OSError ENOENT)
    | Some (Dir _) => Return (<[p := Dir mode]> fs)
    | Some (File content _ mtime) => Return (<[p := File content mode mtime]> fs)
    end
  end.

Definition os_chmod (p : path) (mode : Z) : M unit :=
  fs_call (Chmod p mode) (chmod p mode).

End Runtime.

(** ** setup.py *)

Module Setup.

(** The environment of one run of the install command. *)
Record env : Type := Env {
  platform_system : string;    (* platform.system() *)
  platform_machine : string;   (* platform.machine() *)
  install_lib : path;          (* self.install_lib *)
  setup_file : path;           (* __file__ of setup.py *)
  os_host : host
}.

(** Lines 39-51: the [if]/[elif] chain on [system], giving
    [(binary_name, executable_name)]; [None] is the [else] branch. *)
Definition platform_binary (system : string) : option (string * string) :=
  if String.eqb system "windows" then Some ("whisper-win.exe", "whisper.exe")
  else if String.eqb system "darwin" then Some ("whisper-macos", "whisper")
  else if String.eqb system "linux" then Some ("whisper-linux", "whisper")
  else None.

(** Line 54. *)
Definition install_dir (e : env) : path :=
  install_lib e </> "whisper_cli" </> "bin".

(** Line 57. *)
Definition binary_path (e : env) (executable_name : string) : path :=
  install_dir e </> executable_name.

(** Line 66. *)
Definition local_binary (e : env) (binary_name : string) : path :=
  parent (parent (setup_file e)) </> "dist" </> binary_name.

(** [WhisperInstall.download_whisper_binary], lines 33-84.  The [return]
    of line 73 ends the routine from inside the [try]; here what follows
    the [if] in the source (lines 75-80) is the rest of its first branch.
    [machine] and [download_url] are computed and not used, as in the
    source. *)
Definition download_whisper_binary (e : env) : M unit :=
  let system := lower (platform_system e) in
  let machine := lower (platform_machine e) in
  match platform_binary system with
  | None =>
    (print (MsgUnsupportedPlatform system) ;;
     print MsgUseNpm ;;
     ret tt)%py
  | Some (binary_name, executable_name) =>
    let install_dir := install_dir e in
    (Path_mkdir (os_host e) install_dir ;;
     let binary_path := install_dir </> executable_name in
     print (MsgDownloading system) ;;
     try_except
       (let download_url :=
          "https://github.com/Alinxus/whisper-cli/releases/latest/download/"
          ++ binary_name in
        let local_binary := local_binary e binary_name in
        found <- Path_exists local_binary ;;
        if found then
          shutil_copy2 (os_host e) local_binary binary_path ;;
          print (MsgCopiedLocal binary_path) ;;
          (if negb (String.eqb system "windows")
           then os_chmod (os_host e) binary_path mode_0o755
           else ret tt) ;;
          print MsgInstalled ;;
          print MsgUsage
        else
          print MsgLocalNotFound ;;
          print MsgBuildStandalone ;;
          ret tt)
       (fun ex =>
          print (MsgDownloadFailed ex) ;;
          print MsgInstallManually))%py
  end.

End Setup.

(** ** whisper_cli/cli.py *)

Module Cli.

(** What [subprocess.run] observes of the child. *)
Inductive run_result : Type :=
| Completed (returncode : Z)
| SpawnFailed (e : errno).

(** The environment of one invocation of the launcher. *)
Record env : Type := Env {
  sys_platform : string;                    (* sys.platform *)
  cli_file : path;                          (* abspath(__file__) of cli.py *)
  sys_argv : list string;                   (* sys.argv *)
  fspath : path -> string;                  (* textual form of a path *)
  child : list string -> run_result         (* the wrapped binary *)
}.

(** Lines 7-15. *)
Definition get_whisper_cli_path (e : env) : path :=
  let base_dir := parent (cli_file e) in
  let cli_executable := "whisper" in
  let cli_executable :=
    if startswith (sys_platform e) "win"
    then cli_executable ++ ".exe" else cli_executable in
  base_dir </> cli_executable.

(** [subprocess.run(argv, check=True)]. *)
Definition subprocess_run_check (e : env) (argv : list string) : M unit :=
  (emit (ESpawn argv) ;;
   match child e argv with
   | SpawnFailed err => raise (OSError err)
   | Completed returncode =>
     if Z.eqb returncode 0 then ret tt
     else raise (CalledProcessError returncode argv)
   end)%py.

(** Lines 17-27. *)
Definition main (e : env) : M unit :=
  let cli_path := get_whisper_cli_path e in
  (found <- Path_exists cli_path ;;
   (if negb found then
      print MsgExecutableNotFound ;;
      sys_exit 1
    else ret tt) ;;
   subprocess_run_check e ([fspath e cli_path] ++ skipn 1 (sys_argv e)))%py.

End Cli.

(** ** The hosts the package supports *)

Inductive platform : Type := Windows | MacOS | Linux.

(** [platform.system()] on each. *)
Definition system_of (pf : platform) : string :=
  match pf with
  | Windows => "Windows"
  | MacOS => "Darwin"
  | Linux => "Linux"
  end.

(** [sys.platform] on each. *)
Definition sys_platform_of (pf : platform) : string :=
  match pf with
  | Windows => "win32"
  | MacOS => "darwin"
  | Linux => "linux"
  end.

(** [find_packages()] installs the package [whisper_cli] below
    [install_lib], so this is [__file__] of the installed launcher. *)
Definition installed_cli_file (install_lib : path) : path :=
  install_lib </> "whisper_cli" </> "cli.py".

(** ** The install command *)

(** [WhisperInstall.run], setup.py lines 26-31: the standard [install.run]
    of setuptools, then the binary setup.  [install.run] is not code of
    this package; it is a statement [install_run] of the environment. *)
Definition WhisperInstall_run (install_run : M unit) (e : Setup.env) : M unit :=
  (install_run ;;
   Setup.download_whisper_binary e)%py.

(** A statement that only appends to the trace, and whose outcome and
    effect on the filesystem do not depend on the trace so far. *)
Definition appends {A} (m : M A) : Prop :=
  ∀ (fs : filesystem) (t : list event),
    m (World fs t) =
      (fst (m (World fs [])),
       World (files (snd (m (World fs [])))) (t ++ trace (snd (m (World fs []))))).


(** Every entry of the filesystem lies in a directory. *)
Definition well_formed (fs : filesystem) : Prop :=
  ∀ (c : string) (p : path), is_Some (fs !! (c :: p)) → is_dir fs p = true.

(** ** Vocabulary of the statements *)


(** The installer ran on platform [pf] with environment [se], and the
    launcher it installed runs there with environment [ce]. *)
Record installation (pf : platform) (se : Setup.env) (ce : Cli.env) : Prop := {
  inst_system : Setup.platform_system se = system_of pf;
  inst_sys_platform : Cli.sys_platform ce = sys_platform_of pf;
  inst_cli_file : Cli.cli_file ce = installed_cli_file (Setup.install_lib se)
}.

(** The artifact and executable names the external interface documents
    for each platform. *)
Definition artifact_of (pf : platform) : string :=
  match pf with
  | Windows => "whisper-win.exe"
  | MacOS => "whisper-macos"
  | Linux => "whisper-linux"
  end.

Definition executable_of (pf : platform) : string :=
  match pf with
  | Windows => "whisper.exe"
  | _ => "whisper"
  end.

(** ** Sample installations

    Concrete hosts and filesystems on which the theorems below are
    instantiated.  The package is installed into [/site]; the checkout
    holding [setup.py] is [/repo/python-wrapper], so a locally built
    artifact is looked for in [/repo/dist]. *)

(** A host with umask 0o022 that injects no error. *)
Definition quiet_host : host := Host 18 (fun _ => None).


(** A host on which every change of permission bits is refused. *)
Definition nochmod_host : host :=
  Host 18 (fun c => match c with Chmod _ _ => Some EACCES | _ => None end).

Definition site : path := ["site"].
Definition setup_py : path := ["setup.py"; "python-wrapper"; "repo"].

Definition linux_env : Setup.env :=
  Setup.Env "Linux" "x86_64" site setup_py quiet_host.
Definition linux_arm_env : Setup.env :=
  Setup.Env "Linux" "aarch64" site setup_py quiet_host.
Definition windows_env : Setup.env :=
  Setup.Env "Windows" "AMD64" site setup_py quiet_host.
Definition linux_nochmod_env : Setup.env :=
  Setup.Env "Linux" "x86_64" site setup_py nochmod_host.

(** The first bytes of an ELF executable, readable but not executable
    (mode 0o644). *)
Definition elf : list Byte.byte := [Byte.x7f; Byte.x45; Byte.x4c; Byte.x46].
Definition built_artifact : node := File elf 420 1700000000.

(** Nothing built, nothing installed. *)
Definition fs_fresh : filesystem :=
  {[ ["site"] := Dir 493;
     ["repo"] := Dir 493;
     ["python-wrapper"; "repo"] := Dir 493 ]}.

(** After [npm run build:standalone] on Linux. *)
Definition fs_built : filesystem :=
  <[ ["whisper-linux"; "dist"; "repo"] := built_artifact ]>
    (<[ ["dist"; "repo"] := Dir 493 ]> fs_fresh).

(** An earlier installation left its executable behind; the build output
    is gone. *)
Definition fs_stale : filesystem :=
  <[ ["whisper"; "bin"; "whisper_cli"; "site"] := File elf 493 1600000000 ]>
    (<[ ["bin"; "whisper_cli"; "site"] := Dir 493 ]>
       (<[ ["whisper_cli"; "site"] := Dir 493 ]> fs_fresh)).


(** [fs_fresh] and [fs_built] once [/site/whisper_cli/bin] is made. *)
Definition with_install_dir (fs : filesystem) : filesystem :=
  <[ ["bin"; "whisper_cli"; "site"] := Dir 493 ]>
    (<[ ["whisper_cli"; "site"] := Dir 493 ]> fs).

(** After the Windows build. *)
Definition fs_built_windows : filesystem :=
  <[ ["whisper-win.exe"; "dist"; "repo"] := built_artifact ]>
    (<[ ["dist"; "repo"] := Dir 493 ]> fs_fresh).

(** The textual form of a path on a POSIX host. *)
Definition posix_fspath (p : path) : string :=
  fold_right (fun c acc => acc ++ "/" ++ c) "" p.

(** A wrapped binary that exits with status 2 when given [--fix] and with
    0 otherwise. *)
Definition sample_child (argv : list string) : Cli.run_result :=
  if existsb (String.eqb "--fix") argv then Cli.Completed 2 else Cli.Completed 0.

(** The launcher as installed on Linux below [/site], called as
    [whisper scan --fix] and as [whisper scan]. *)
Definition scan_fix_launch : Cli.env :=
  Cli.Env "linux" (installed_cli_file site) ["whisper"; "scan"; "--fix"]
    posix_fspath sample_child.

Definition scan_launch : Cli.env :=
  Cli.Env "linux" (installed_cli_file site) ["whisper"; "scan"]
    posix_fspath sample_child.

(** A filesystem on which the launcher finds its executable. *)
Definition fs_beside_launcher : filesystem :=
  <[ ["whisper"; "whisper_cli"; "site"] := File elf 493 1700000000 ]>
    (<[ ["whisper_cli"; "site"] := Dir 493 ]> fs_fresh).


Definition refused_install : M unit := raise (OSError EACCES).

(** * Properties *)

(** ** The filesystem calls *)

Section RuntimeFacts.

Variable h : host.

Lemma node_at_cons (fs : filesystem) (c : string) (p : path) :
  node_at fs (c :: p) = fs !! (c :: p).
Proof. reflexivity. Qed.

Lemma is_dir_lookup (fs : filesystem) (c : string) (p : path) (m : Z) :
  fs !! (c :: p) = Some (Dir m) → is_dir fs (c :: p) = true.
Proof. unfold is_dir. rewrite node_at_cons. by intros ->. Qed.

(** [os.mkdir] writes the one entry [p], which was absent, and nothing
    else. *)
Lemma os_mkdir_Return (p : path) (fs fs' : filesystem) :
  os_mkdir h p fs = Return fs' →
  fs !! p = None ∧ fs' = <[p := Dir (Z.ldiff mode_0o777 (umask h))]> fs ∧
  ∃ c up, p = c :: up.
Proof.
  unfold os_mkdir. destruct (fault h (Mkdir p)); [done|].
  destruct p as [|c up]; [done|].
  destruct (node_at fs up) as [[m|ct m t]|]; try done.
  destruct (fs !! (c :: up)) eqn:E; [done|].
  intros [= <-]. eauto.
Qed.

Lemma unless_is_dir_Return (p : path) (fs fs' : filesystem) (e : exn) :
  unless_is_dir p fs e = Return fs' → fs' = fs ∧ is_dir fs p = true.
Proof.
  unfold unless_is_dir. destruct (is_dir fs p); [|done]. by intros [= <-].
Qed.

Lemma Path_mkdir_leaf_Return (p : path) (fs fs' : filesystem) :
  Path_mkdir_leaf h p fs = Return fs' →
  os_mkdir h p fs = Return fs' ∨ (fs' = fs ∧ is_dir fs p = true).
Proof.
  unfold Path_mkdir_leaf. destruct (os_mkdir h p fs) as [fs1|e]; [auto|].
  destruct e as [[]| | |]; try done;
    intros H%unless_is_dir_Return; auto.
Qed.

(** How a successful [Path.mkdir(parents=True, exist_ok=True)] ended:
    it made [p], or found it a directory; in the first case, possibly
    after making the parent. *)
Lemma Path_mkdir_parents_Return (p : path) (fs fs' : filesystem) :
  Path_mkdir_parents h p fs = Return fs' →
  os_mkdir h p fs = Return fs' ∨
  (fs' = fs ∧ is_dir fs p = true) ∨
  (∃ c up fs1, p = c :: up ∧ Path_mkdir_parents h up fs = Return fs1 ∧
               Path_mkdir_leaf h p fs1 = Return fs').
Proof.
  destruct p as [|c up]; simpl.
  - destruct (os_mkdir h [] fs) as [fs1|e]; [auto|].
    destruct e as [[]| | |]; try done;
      intros H%unless_is_dir_Return; auto.
  - destruct (os_mkdir h (c :: up) fs) as [fs1|e]; [auto|].
    destruct e as [[]| | |]; try done;
      try (intros H%unless_is_dir_Return; auto).
    destruct (Path_mkdir_parents h up fs) as [fs1|e1] eqn:E; [|done].
    intros H. right. right. by exists c, up, fs1.
Qed.

(** It leaves every path alone that is neither [p] nor above it. *)
Lemma Path_mkdir_parents_frame (p : path) (fs fs' : filesystem) (q : path) :
  Path_mkdir_parents h p fs = Return fs' →
  ¬ q `suffix_of` p →
  fs' !! q = fs !! q.
Proof.
  revert fs fs'. induction p as [|c up IH]; intros fs fs' Hm Hq.
  - apply Path_mkdir_parents_Return in Hm as [Hm|[[-> _]|Hm]]; [|done|].
    + by apply os_mkdir_Return in Hm as (_ & _ & ? & ? & ?).
    + by destruct Hm as (? & ? & ? & ? & _).
  - assert (q ≠ c :: up) as Hne by (intros ->; by apply Hq).
    assert (¬ q `suffix_of` up) as Hup
      by (intros Hs; apply Hq; by apply suffix_cons_r).
    apply Path_mkdir_parents_Return in Hm as [Hm|[[-> _]|Hm]]; [|done|].
    + apply os_mkdir_Return in Hm as (_ & -> & _).
      by rewrite lookup_insert_ne.
    + destruct Hm as (c' & up' & fs1 & [= <- <-] & Hup1 & Hleaf).
      rewrite <- (IH _ _ Hup1 Hup).
      apply Path_mkdir_leaf_Return in Hleaf as [Hm|[-> _]]; [|done].
      apply os_mkdir_Return in Hm as (_ & -> & _).
      by rewrite lookup_insert_ne.
Qed.

(** It never replaces an entry. *)
Lemma Path_mkdir_parents_keeps (p : path) (fs fs' : filesystem) (q : path)
    (n : node) :
  Path_mkdir_parents h p fs = Return fs' →
  fs !! q = Some n → fs' !! q = Some n.
Proof.
  revert fs fs'. induction p as [|c up IH]; intros fs fs' Hm Hq.
  - apply Path_mkdir_parents_Return in Hm as [Hm|[[-> _]|Hm]]; [|done|].
    + by apply os_mkdir_Return in Hm as (_ & _ & ? & ? & ?).
    + by destruct Hm as (? & ? & ? & ? & _).
  - apply Path_mkdir_parents_Return in Hm as [Hm|[[-> _]|Hm]]; [|done|].
    + apply os_mkdir_Return in Hm as (Hnone & -> & _).
      rewrite lookup_insert_ne; [done|]. intros <-. congruence.
    + destruct Hm as (c' & up' & fs1 & [= <- <-] & Hup1 & Hleaf).
      specialize (IH _ _ Hup1 Hq).
      apply Path_mkdir_leaf_Return in Hleaf as [Hm|[-> _]]; [|done].
      apply os_mkdir_Return in Hm as (Hnone & -> & _).
      rewrite lookup_insert_ne; [done|]. intros <-. congruence.
Qed.

(** When it returns, [p] is a directory. *)
Lemma Path_mkdir_parents_is_dir (p : path) (fs fs' : filesystem) :
  Path_mkdir_parents h p fs = Return fs' → is_dir fs' p = true.
Proof.
  intros Hm.
  assert (∀ fs0 fs1 : filesystem,
             os_mkdir h p fs0 = Return fs1 → is_dir fs1 p = true) as Hos.
  { intros fs0 fs1 H. apply os_mkdir_Return in H as (_ & -> & c & up & ->).
    eapply is_dir_lookup. apply lookup_insert_eq. }
  apply Path_mkdir_parents_Return in Hm as [Hm|[[-> Hd]|Hm]]; [eauto|done|].
  destruct Hm as (c & up & fs1 & -> & _ & Hleaf).
  apply Path_mkdir_leaf_Return in Hleaf as [Hm|[-> Hd]]; eauto.
Qed.

End RuntimeFacts.

Section CopyFacts.

Variable h : host.

(** [shutil.copy2] writes one entry, a copy of the source file. *)
Lemma copy2_Return (src dst : path) (fs fs' : filesystem) :
  copy2 h src dst fs = Return fs' →
  ∃ content mode mtime,
    node_at fs src = Some (File content mode mtime) ∧
    fs' = <[copy2_target fs src dst := File content mode mtime]> fs.
Proof.
  unfold copy2. destruct (fault h (Copy2 src dst)); [done|].
  destruct (samefile fs src (copy2_target fs src dst)); [done|].
  destruct (node_at fs src) as [[m|content m t]|]; try done.
  destruct (node_at fs (parent (copy2_target fs src dst))) as [[m'|? ? ?]|];
    try done.
  destruct (node_at fs (copy2_target fs src dst)) as [[m''|? ? ?]|];
    try done; intros [= <-]; eauto.
Qed.


(** [os.chmod] rewrites the permission bits of the one entry [p]. *)
Lemma chmod_Return (p : path) (mode : Z) (fs fs' : filesystem) :
  chmod h p mode fs = Return fs' →
  ∃ n, fs' = <[p := n]> fs.
Proof.
  unfold chmod. destruct (fault h (Chmod p mode)); [done|].
  destruct (node_at fs p) as [[m|content m t]|]; try done;
    intros [= <-]; eauto.
Qed.


End CopyFacts.

(** ** The monad *)

(** Unfold a run down to the filesystem calls. *)
Ltac py_unfold :=
  unfold run, Path_mkdir, Path_exists, shutil_copy2, os_chmod, print, emit,
    sys_exit, raise, ret, bind, try_except, fs_call, fs_query;
  cbn [files trace app fst snd].

Ltac py_step := cbn [files trace app fst snd].

(** ** The installer, branch by branch *)

Section SetupBranches.

Import Setup.

Variable e : Setup.env.
Variable fs : filesystem.

Local Abbreviation system := (lower (platform_system e)).
Local Abbreviation h := (os_host e).

Lemma local_binary_ne_binary_path (bn en : string) :
  local_binary e bn ≠ binary_path e en.
Proof.
  unfold local_binary, binary_path, install_dir, joinpath.
  intros H. by injection H.
Qed.


(** Neither [copy2] nor [chmod] raises anything [except Exception]
    lets through. *)
Lemma copy2_Raise (src dst : path) (fs0 : filesystem) (ex : exn) :
  copy2 h src dst fs0 = Raise ex → is_Exception ex = true.
Proof.
  unfold copy2. destruct (fault h (Copy2 src dst)); [by intros [= <-]|].
  destruct (samefile fs0 src (copy2_target fs0 src dst)); [by intros [= <-]|].
  repeat case_match; by intros [= <-].
Qed.

Lemma chmod_Raise (p : path) (mode : Z) (fs0 : filesystem) (ex : exn) :
  chmod h p mode fs0 = Raise ex → is_Exception ex = true.
Proof. unfold chmod. repeat case_match; by intros [= <-]. Qed.

(** Lines 48-51. *)
Lemma download_unsupported :
  platform_binary system = None →
  run (download_whisper_binary e) fs =
    (Return tt,
     World fs [EPrint (MsgUnsupportedPlatform system); EPrint MsgUseNpm]).
Proof. intros Hp. unfold download_whisper_binary. by rewrite Hp. Qed.

Section Supported.

Variables binary_name executable_name : string.
Hypothesis Hsupported :
  platform_binary system = Some (binary_name, executable_name).

Local Abbreviation src := (local_binary e binary_name).
Local Abbreviation dst := (binary_path e executable_name).

(** Line 55 raises. *)
Lemma download_mkdir_raises (ex : exn) :
  Path_mkdir_parents h (install_dir e) fs = Raise ex →
  run (download_whisper_binary e) fs =
    (Raise ex, World fs [ECall (Mkdir (install_dir e))]).
Proof.
  intros Hm. unfold download_whisper_binary. rewrite Hsupported.
  py_unfold. by rewrite Hm.
Qed.

Section Created.

Variable fs1 : filesystem.
Hypothesis Hmkdir :
  Path_mkdir_parents h (install_dir e) fs = Return fs1.

(** Lines 70-73. *)
Lemma download_absent :
  path_exists fs1 src = false →
  run (download_whisper_binary e) fs =
    (Return tt,
     World fs1 [ECall (Mkdir (install_dir e));
                EPrint (MsgDownloading system);
                ECall (Exists src);
                EPrint MsgLocalNotFound;
                EPrint MsgBuildStandalone]).
Proof.
  intros Hx. unfold download_whisper_binary. rewrite Hsupported.
  py_unfold. rewrite Hmkdir. py_step. by rewrite Hx.
Qed.

(** Line 68 raises. *)
Lemma download_copy_raises (ex : exn) :
  path_exists fs1 src = true →
  copy2 h src dst fs1 = Raise ex →
  run (download_whisper_binary e) fs =
    (Return tt,
     World fs1 [ECall (Mkdir (install_dir e));
                EPrint (MsgDownloading system);
                ECall (Exists src);
                ECall (Copy2 src dst);
                EPrint (MsgDownloadFailed ex);
                EPrint MsgInstallManually]).
Proof.
  intros Hx Hc. unfold download_whisper_binary. rewrite Hsupported.
  py_unfold. rewrite Hmkdir. py_step. rewrite Hx. py_step.
  unfold binary_path in Hc. rewrite Hc. py_step.
  by rewrite (copy2_Raise _ _ _ _ Hc).
Qed.

Section Copied.

Variable fs2 : filesystem.
Hypothesis Hexists : path_exists fs1 src = true.
Hypothesis Hcopy : copy2 h src dst fs1 = Return fs2.

(** Lines 76, 79, 80 on Windows. *)
Lemma download_installed_windows :
  system = "windows" →
  run (download_whisper_binary e) fs =
    (Return tt,
     World fs2 [ECall (Mkdir (install_dir e));
                EPrint (MsgDownloading system);
                ECall (Exists src);
                ECall (Copy2 src dst);
                EPrint (MsgCopiedLocal dst);
                EPrint MsgInstalled;
                EPrint MsgUsage]).
Proof.
  intros Hw. unfold download_whisper_binary. rewrite Hsupported.
  py_unfold. rewrite Hmkdir. py_step. rewrite Hexists. py_step.
  unfold binary_path in Hcopy. rewrite Hcopy. py_step.
  by rewrite Hw.
Qed.

(** Line 77 raises. *)
Lemma download_chmod_raises (ex : exn) :
  system ≠ "windows" →
  chmod h dst mode_0o755 fs2 = Raise ex →
  run (download_whisper_binary e) fs =
    (Return tt,
     World fs2 [ECall (Mkdir (install_dir e));
                EPrint (MsgDownloading system);
                ECall (Exists src);
                ECall (Copy2 src dst);
                EPrint (MsgCopiedLocal dst);
                ECall (Chmod dst mode_0o755);
                EPrint (MsgDownloadFailed ex);
                EPrint MsgInstallManually]).
Proof.
  intros Hw Hch. unfold download_whisper_binary. rewrite Hsupported.
  py_unfold. rewrite Hmkdir. py_step. rewrite Hexists. py_step.
  unfold binary_path in Hcopy, Hch. rewrite Hcopy. py_step.
  apply String.eqb_neq in Hw. rewrite Hw. cbn [negb]. py_step.
  rewrite Hch. py_step. by rewrite (chmod_Raise _ _ _ _ Hch).
Qed.

(** Lines 77, 79, 80 elsewhere. *)
Lemma download_installed_posix (fs3 : filesystem) :
  system ≠ "windows" →
  chmod h dst mode_0o755 fs2 = Return fs3 →
  run (download_whisper_binary e) fs =
    (Return tt,
     World fs3 [ECall (Mkdir (install_dir e));
                EPrint (MsgDownloading system);
                ECall (Exists src);
                ECall (Copy2 src dst);
                EPrint (MsgCopiedLocal dst);
                ECall (Chmod dst mode_0o755);
                EPrint MsgInstalled;
                EPrint MsgUsage]).
Proof.
  intros Hw Hch. unfold download_whisper_binary. rewrite Hsupported.
  py_unfold. rewrite Hmkdir. py_step. rewrite Hexists. py_step.
  unfold binary_path in Hcopy, Hch. rewrite Hcopy. py_step.
  apply String.eqb_neq in Hw. rewrite Hw. cbn [negb]. py_step.
  by rewrite Hch.
Qed.

End Copied.
End Created.
End Supported.
End SetupBranches.

(** ** The installer as a whole *)

(** Split a run of the installer on a supported platform into its six
    branches, rewriting the run with the matching branch lemma. *)
Ltac download_cases e fs bn en Hs :=
  let fs1 := fresh "fs1" in let fs2 := fresh "fs2" in
  let fs3 := fresh "fs3" in let ex := fresh "ex" in
  let Hm := fresh "Hmkdir" in let Hx := fresh "Hexists" in
  let Hc := fresh "Hcopy" in let Hw := fresh "Hwin" in
  let Hch := fresh "Hchmod" in
  destruct (Path_mkdir_parents (Setup.os_host e) (Setup.install_dir e) fs)
    as [fs1|ex] eqn:Hm;
  [ destruct (path_exists fs1 (Setup.local_binary e bn)) eqn:Hx;
    [ destruct (copy2 (Setup.os_host e) (Setup.local_binary e bn)
                  (Setup.binary_path e en) fs1) as [fs2|ex] eqn:Hc;
      [ destruct (String.eqb_spec (lower (Setup.platform_system e)) "windows")
          as [Hw|Hw];
        [ rewrite (download_installed_windows e fs bn en Hs fs1 Hm fs2 Hx Hc Hw)
        | destruct (chmod (Setup.os_host e) (Setup.binary_path e en)
                      mode_0o755 fs2) as [fs3|ex] eqn:Hch;
          [ rewrite (download_installed_posix e fs bn en Hs fs1 Hm fs2 Hx Hc
                       fs3 Hw Hch)
          | rewrite (download_chmod_raises e fs bn en Hs fs1 Hm fs2 Hx Hc
                       ex Hw Hch) ] ]
      | rewrite (download_copy_raises e fs bn en Hs fs1 Hm ex Hx Hc) ]
    | rewrite (download_absent e fs bn en Hs fs1 Hm Hx) ]
  | rewrite (download_mkdir_raises e fs bn en Hs ex Hm) ].

Section SetupFacts.

Import Setup.

Variable e : Setup.env.
Variable fs : filesystem.

Local Abbreviation system := (lower (platform_system e)).
Local Abbreviation h := (os_host e).
Local Abbreviation r := (run (download_whisper_binary e) fs).


(** The installer writes at most the install directory and what is
    above it, the executable, and, when a directory is in the
    executable's place, an entry inside it. *)
Lemma download_frame (q : path) :
  (∀ bn en, platform_binary system = Some (bn, en) →
            ¬ q `suffix_of` install_dir e ∧
            q ≠ binary_path e en ∧
            q ≠ binary_path e en </> bn) →
  files (snd r) !! q = fs !! q.
Proof.
  intros Hq. destruct (platform_binary system) as [[bn en]|] eqn:Hs.
  - destruct (Hq bn en eq_refl) as (Hq1 & Hq2 & Hq3).
    assert (∀ fs1 fs2, copy2 h (local_binary e bn) (binary_path e en) fs1
                       = Return fs2 → fs2 !! q = fs1 !! q) as Hcp.
    { intros fs1 fs2 (c & m & t & _ & ->)%copy2_Return.
      apply lookup_insert_ne. unfold copy2_target.
      destruct (is_dir fs1 (binary_path e en));
        [change (basename (local_binary e bn)) with bn|]; congruence. }
    assert (∀ fs2 fs3, chmod h (binary_path e en) mode_0o755 fs2
                       = Return fs3 → fs3 !! q = fs2 !! q) as Hcm.
    { intros fs2 fs3 (n & ->)%chmod_Return.
      apply lookup_insert_ne. congruence. }
    download_cases e fs bn en Hs; cbn [snd files]; try done.
    + rewrite (Hcp _ _ Hcopy). eauto using Path_mkdir_parents_frame.
    + rewrite (Hcm _ _ Hchmod), (Hcp _ _ Hcopy).
      eauto using Path_mkdir_parents_frame.
    + rewrite (Hcp _ _ Hcopy). eauto using Path_mkdir_parents_frame.
    + eauto using Path_mkdir_parents_frame.
    + eauto using Path_mkdir_parents_frame.
  - by rewrite (download_unsupported e fs Hs).
Qed.

End SetupFacts.

(** ** Statements about the installer *)

Section InstallerClaims.

Import Setup.

Variable e : Setup.env.
Variable fs : filesystem.

Local Abbreviation system := (lower (platform_system e)).
Local Abbreviation h := (os_host e).
Local Abbreviation r := (run (download_whisper_binary e) fs).






End InstallerClaims.

(** The bits 0o755 give execute permission to owner, group and others. *)
Lemma mode_0o755_executable :
  Z.testbit mode_0o755 6 = true ∧ Z.testbit mode_0o755 3 = true ∧
  Z.testbit mode_0o755 0 = true.
Proof. done. Qed.

(** C10.  Two runs of the installer whose environments differ only in
    the machine architecture behave identically: same outcome, same
    filesystem, same trace; the selection of the artifact and executable
    names reads the operating-system identifier alone. *)
Theorem machine_is_ignored
    (sys m1 m2 : string) (lib sf : path) (h : host) (fs : filesystem) :
  run (Setup.download_whisper_binary (Setup.Env sys m1 lib sf h)) fs =
  run (Setup.download_whisper_binary (Setup.Env sys m2 lib sf h)) fs.
Proof. reflexivity. Qed.

(** ** The launcher *)

Section LauncherFacts.

Import Cli.

Variable e : Cli.env.
Variable fs : filesystem.

Local Abbreviation cli_path := (get_whisper_cli_path e).
Local Abbreviation argv := (fspath e cli_path :: skipn 1 (sys_argv e)).

(** Lines 22-24. *)
Lemma main_not_found :
  path_exists fs cli_path = false →
  run (main e) fs =
    (Raise (SystemExit 1),
     World fs [ECall (Exists cli_path); EPrint MsgExecutableNotFound]).
Proof. intros Hx. unfold main. py_unfold. by rewrite Hx. Qed.

(** Line 27. *)
Lemma main_found :
  path_exists fs cli_path = true →
  run (main e) fs =
    (match child e argv with
     | SpawnFailed err => Raise (OSError err)
     | Completed returncode =>
       if Z.eqb returncode 0 then Return tt
       else Raise (CalledProcessError returncode argv)
     end,
     World fs [ECall (Exists cli_path); ESpawn argv]).
Proof.
  intros Hx. unfold main, subprocess_run_check. py_unfold. rewrite Hx.
  cbn [negb app]. py_step.
  destruct (child e argv) as [rc|err]; [|done].
  by destruct (Z.eqb rc 0).
Qed.

(** C5.  When the resolved binary path exists, exactly one child is
    spawned, and its argument vector is the binary path followed by the
    arguments after the launcher's own program name, in their order, with
    none dropped and none added. *)
Theorem launcher_forwards_arguments :
  path_exists fs cli_path = true →
  trace (snd (run (main e) fs)) =
    [ECall (Exists cli_path); ESpawn (fspath e cli_path :: skipn 1 (sys_argv e))] ∧
  filter is_spawn (trace (snd (run (main e) fs))) =
    [ESpawn (fspath e cli_path :: skipn 1 (sys_argv e))] ∧
  ∀ prog args, sys_argv e = prog :: args →
    filter is_spawn (trace (snd (run (main e) fs))) =
      [ESpawn (fspath e cli_path :: args)].
Proof.
  intros Hx. rewrite (main_found Hx). cbn [snd trace].
  repeat split. by intros prog args ->.
Qed.

(** C6.  When the resolved binary path does not exist, the launcher
    prints the one diagnostic, spawns no child, and the process exits
    with status 1. *)
Theorem missing_binary_exits_1 :
  path_exists fs cli_path = false →
  fst (run (main e) fs) = Raise (SystemExit 1) ∧
  exit_status (fst (run (main e) fs)) = 1 ∧
  filter is_print (trace (snd (run (main e) fs))) =
    [EPrint MsgExecutableNotFound] ∧
  filter is_spawn (trace (snd (run (main e) fs))) = [] ∧
  files (snd (run (main e) fs)) = fs.
Proof. intros Hx. by rewrite (main_not_found Hx). Qed.

(** C2 (amended).  When the resolved binary exists and the child
    terminates with status N, the launcher exits with status 0 if N is
    0; if N is not 0, the check on the subprocess result raises
    [CalledProcessError], nothing catches it, and the launcher exits with
    status 1. *)
Theorem child_status_zero_or_failure (N : Z) :
  path_exists fs cli_path = true →
  child e (fspath e cli_path :: skipn 1 (sys_argv e)) = Completed N →
  exit_status (fst (run (main e) fs)) = (if Z.eqb N 0 then 0 else 1) ∧
  (N ≠ 0 →
   fst (run (main e) fs) =
     Raise (CalledProcessError N (fspath e cli_path :: skipn 1 (sys_argv e)))).
Proof.
  intros Hx Hc. rewrite (main_found Hx), Hc. cbn [fst].
  destruct (Z.eqb_spec N 0) as [->|Hn]; done.
Qed.

End LauncherFacts.

(** ** Installer and launcher together *)

Section Handshake.

Variable pf : platform.
Variable se : Setup.env.
Variable ce : Cli.env.
Hypothesis Hinst : installation pf se ce.

Local Abbreviation lib := (Setup.install_lib se).

Lemma installer_selects :
  Setup.platform_binary (lower (Setup.platform_system se))
    = Some (artifact_of pf, executable_of pf).
Proof. destruct Hinst as [-> _ _]. by destruct pf. Qed.

(** The installer writes the executable to [whisper_cli/bin]. *)
Lemma installer_path :
  Setup.binary_path se (executable_of pf)
    = lib </> "whisper_cli" </> "bin" </> executable_of pf.
Proof. reflexivity. Qed.

(** The launcher looks for it in [whisper_cli] itself. *)
Lemma launcher_path :
  Cli.get_whisper_cli_path ce = lib </> "whisper_cli" </> executable_of pf.
Proof.
  unfold Cli.get_whisper_cli_path. destruct Hinst as [_ -> ->].
  by destruct pf.
Qed.

(** Nothing the installer writes is the file the launcher looks for. *)
Lemma launcher_path_untouched (fs : filesystem) :
  files (snd (run (Setup.download_whisper_binary se) fs))
    !! Cli.get_whisper_cli_path ce
  = fs !! Cli.get_whisper_cli_path ce.
Proof.
  apply download_frame. intros bn en _. rewrite launcher_path.
  unfold Setup.binary_path, Setup.install_dir, joinpath.
  repeat split.
  - intros [H|[H|H%suffix_length]%suffix_cons_inv]%suffix_cons_inv.
    + injection H as H. by destruct pf.
    + injection H as _ H. apply (f_equal length) in H. simpl in H. lia.
    + simpl in H. lia.
  - intros H. apply (f_equal length) in H. simpl in H. lia.
  - intros H. apply (f_equal length) in H. simpl in H. lia.
Qed.

(** C1 (a defect of the code).  On each supported platform the installer
    places the executable at [<package-root>/bin/<executable-name>],
    while the path the launcher resolves is
    [<package-root>/<executable-name>], without the [bin] component.  So
    on a filesystem with nothing at the launcher's path before the
    installation, whatever the installer did, the launcher's existence
    check fails afterwards: it prints the diagnostic and exits with
    status 1. *)
Theorem launcher_misses_installed_binary (fs : filesystem) :
  path_exists fs (Cli.get_whisper_cli_path ce) = false →
  let fs' := files (snd (run (Setup.download_whisper_binary se) fs)) in
  Setup.binary_path se (executable_of pf)
    = parent (Cli.cli_file ce) </> "bin" </> executable_of pf ∧
  Cli.get_whisper_cli_path ce
    = parent (Cli.cli_file ce) </> executable_of pf ∧
  Cli.get_whisper_cli_path ce ≠ Setup.binary_path se (executable_of pf) ∧
  run (Cli.main ce) fs' =
    (Raise (SystemExit 1),
     World fs' [ECall (Exists (Cli.get_whisper_cli_path ce));
                EPrint MsgExecutableNotFound]) ∧
  exit_status (fst (run (Cli.main ce) fs')) = 1.
Proof.
  intros Hx fs'.
  assert (path_exists fs' (Cli.get_whisper_cli_path ce) = false) as Hx'.
  { pose proof (launcher_path_untouched fs) as Hu.
    revert Hx Hu. subst fs'. unfold path_exists.
    rewrite launcher_path. unfold joinpath. rewrite !node_at_cons.
    by intros Hx ->. }
  rewrite (main_not_found ce fs' Hx').
  pose proof launcher_path as Hl. destruct Hinst as [_ _ Hf].
  rewrite Hl, Hf. repeat split.
  intros H. apply (f_equal length) in H. simpl in H. lia.
Qed.

End Handshake.

(** ** The statements on the sample installations *)









(** [launcher_forwards_arguments] on [whisper scan --fix]. *)
Lemma launcher_forwards_arguments_witness :
  path_exists fs_beside_launcher (Cli.get_whisper_cli_path scan_fix_launch)
    = true ∧
  filter is_spawn (trace (snd (run (Cli.main scan_fix_launch) fs_beside_launcher)))
    = [ESpawn ["/site/whisper_cli/whisper"; "scan"; "--fix"]].
Proof.
  assert (path_exists fs_beside_launcher
            (Cli.get_whisper_cli_path scan_fix_launch) = true) as Hx
    by (vm_compute; reflexivity).
  split; [done|].
  exact (proj1 (proj2 (launcher_forwards_arguments scan_fix_launch
                          fs_beside_launcher Hx))).
Defined.

(** [missing_binary_exits_1] on a filesystem without the executable. *)
Lemma missing_binary_exits_1_witness :
  path_exists fs_fresh (Cli.get_whisper_cli_path scan_launch) = false ∧
  exit_status (fst (run (Cli.main scan_launch) fs_fresh)) = 1.
Proof.
  assert (path_exists fs_fresh (Cli.get_whisper_cli_path scan_launch) = false)
    as Hx by (vm_compute; reflexivity).
  split; [done|].
  exact (proj1 (proj2 (missing_binary_exits_1 scan_launch fs_fresh Hx))).
Defined.

(** C2, as stated, fails where the child exits with status 2: the
    binary exists and the child terminates with status 2, yet the launcher
    exits with status 1. *)
Lemma nonzero_status_becomes_1 :
  path_exists fs_beside_launcher (Cli.get_whisper_cli_path scan_fix_launch)
    = true ∧
  Cli.child scan_fix_launch
    (Cli.fspath scan_fix_launch (Cli.get_whisper_cli_path scan_fix_launch)
       :: skipn 1 (Cli.sys_argv scan_fix_launch)) = Cli.Completed 2 ∧
  exit_status (fst (run (Cli.main scan_fix_launch) fs_beside_launcher)) = 1 ∧
  exit_status (fst (run (Cli.main scan_fix_launch) fs_beside_launcher)) ≠ 2.
Proof. by vm_compute. Qed.

(** [child_status_zero_or_failure] on [whisper scan --fix]. *)
Lemma child_status_zero_or_failure_witness :
  (path_exists fs_beside_launcher (Cli.get_whisper_cli_path scan_fix_launch)
     = true ∧
   Cli.child scan_fix_launch
     (Cli.fspath scan_fix_launch (Cli.get_whisper_cli_path scan_fix_launch)
        :: skipn 1 (Cli.sys_argv scan_fix_launch)) = Cli.Completed 2) ∧
  exit_status (fst (run (Cli.main scan_fix_launch) fs_beside_launcher)) = 1.
Proof.
  assert (path_exists fs_beside_launcher
            (Cli.get_whisper_cli_path scan_fix_launch) = true) as Hx
    by (vm_compute; reflexivity).
  assert (Cli.child scan_fix_launch
            (Cli.fspath scan_fix_launch
               (Cli.get_whisper_cli_path scan_fix_launch)
             :: skipn 1 (Cli.sys_argv scan_fix_launch)) = Cli.Completed 2)
    as Hc by reflexivity.
  split; [done|].
  exact (proj1 (child_status_zero_or_failure scan_fix_launch
                  fs_beside_launcher 2 Hx Hc)).
Defined.

Lemma linux_installation : installation Linux linux_env scan_launch.
Proof. by split. Qed.

(** [launcher_misses_installed_binary] on Linux after a build: the
    installer succeeds and the executable is in [whisper_cli/bin], yet the
    launcher exits with status 1. *)
Lemma launcher_misses_installed_binary_witness :
  path_exists fs_built (Cli.get_whisper_cli_path scan_launch) = false ∧
  exit_status
    (fst (run (Cli.main scan_launch)
            (files (snd (run (Setup.download_whisper_binary linux_env) fs_built)))))
  = 1.
Proof.
  assert (path_exists fs_built (Cli.get_whisper_cli_path scan_launch) = false)
    as Hx by (vm_compute; reflexivity).
  split; [done|].
  destruct (launcher_misses_installed_binary Linux linux_env scan_launch
              linux_installation fs_built Hx) as (_ & _ & _ & _ & H).
  exact H.
Defined.

(** The same run, evaluated: the installer reports success and the
    executable is at [/site/whisper_cli/bin/whisper]; the launcher looks at
    [/site/whisper_cli/whisper], reports it missing and exits with 1. *)
Example install_then_launch :
  let installed := run (Setup.download_whisper_binary linux_env) fs_built in
  let launched := run (Cli.main scan_launch) (files (snd installed)) in
  fst installed = Return tt ∧
  files (snd installed) !! ["whisper"; "bin"; "whisper_cli"; "site"]
    = Some (File elf 493 1700000000) ∧
  Cli.get_whisper_cli_path scan_launch = ["whisper"; "whisper_cli"; "site"] ∧
  files (snd installed) !! ["whisper"; "whisper_cli"; "site"] = None ∧
  trace (snd launched) =
    [ECall (Exists ["whisper"; "whisper_cli"; "site"]);
     EPrint MsgExecutableNotFound] ∧
  exit_status (fst launched) = 1.
Proof. by vm_compute. Qed.

(** ** More runs on the sample installations *)

(** Each supported platform reports a system name that selects its
    documented pair. *)
Lemma documented_names_selected (pf : platform) :
  Setup.platform_binary (lower (system_of pf))
    = Some (artifact_of pf, executable_of pf).
Proof. by destruct pf. Qed.

(** On Windows the permission bits are not changed: the installed file
    keeps those of the artifact. *)
Example windows_install_keeps_mode :
  let installed := run (Setup.download_whisper_binary windows_env) fs_built_windows in
  fst installed = Return tt ∧
  files (snd installed) !! ["whisper.exe"; "bin"; "whisper_cli"; "site"]
    = Some (File elf 420 1700000000) ∧
  filter is_write (trace (snd installed)) =
    [ECall (Mkdir ["bin"; "whisper_cli"; "site"]);
     ECall (Copy2 ["whisper-win.exe"; "dist"; "repo"]
                  ["whisper.exe"; "bin"; "whisper_cli"; "site"])].
Proof. by vm_compute. Qed.

(** A refused change of permission bits is reported after the copy was
    made. *)
Example refused_chmod_is_reported :
  let installed := run (Setup.download_whisper_binary linux_nochmod_env) fs_built in
  fst installed = Return tt ∧
  files (snd installed) !! ["whisper"; "bin"; "whisper_cli"; "site"]
    = Some (File elf 420 1700000000) ∧
  filter is_print (trace (snd installed)) =
    [EPrint (MsgDownloading "linux");
     EPrint (MsgCopiedLocal ["whisper"; "bin"; "whisper_cli"; "site"]);
     EPrint (MsgDownloadFailed (OSError EACCES));
     EPrint MsgInstallManually].
Proof. by vm_compute. Qed.

(** The same installation on another machine architecture. *)
Example same_run_on_arm :
  run (Setup.download_whisper_binary linux_arm_env) fs_built
  = run (Setup.download_whisper_binary linux_env) fs_built.
Proof. reflexivity. Qed.

(** The launcher beside its executable, with a child that succeeds. *)
Example launch_succeeds :
  run (Cli.main scan_launch) fs_beside_launcher =
    (Return tt,
     World fs_beside_launcher
       [ECall (Exists ["whisper"; "whisper_cli"; "site"]);
        ESpawn ["/site/whisper_cli/whisper"; "scan"]]).
Proof. by vm_compute. Qed.

(** * Further properties *)

(** ** Creating the install directory again *)

Section MkdirAgain.

Variable h : host.

Lemma Path_mkdir_parents_eq (p : path) (fs : filesystem) :
  Path_mkdir_parents h p fs =
    match os_mkdir h p fs with
    | Return fs' => Return fs'
    | Raise (OSError ENOENT) =>
      match p with
      | [] => Raise (OSError ENOENT)
      | _ :: up =>
        match Path_mkdir_parents h up fs with
        | Return fs' => Path_mkdir_leaf h p fs'
        | Raise e => Raise e
        end
      end
    | Raise e => unless_is_dir p fs e
    end.
Proof. by destruct p. Qed.

Lemma node_at_insert_ne (fs : filesystem) (q p : path) (n : node) :
  q ≠ p → node_at (<[q := n]> fs) p = node_at fs p.
Proof.
  intros Hne. destruct p as [|c p]; [done|].
  rewrite !node_at_cons. by apply lookup_insert_ne.
Qed.

Lemma is_dir_insert_ne (fs : filesystem) (q p : path) (n : node) :
  q ≠ p → is_dir (<[q := n]> fs) p = is_dir fs p.
Proof. intros Hne. unfold is_dir. by rewrite node_at_insert_ne. Qed.

Lemma cons_ne_self (c : string) (p : path) : c :: p ≠ p.
Proof. intros H. apply (f_equal length) in H. simpl in H. lia. Qed.

(** What a successful [os.mkdir] found. *)
Lemma os_mkdir_Return_inv (p : path) (fs fs' : filesystem) :
  os_mkdir h p fs = Return fs' →
  fault h (Mkdir p) = None ∧
  ∃ c up m, p = c :: up ∧ node_at fs up = Some (Dir m) ∧ fs !! p = None ∧
            fs' = <[p := Dir (Z.ldiff mode_0o777 (umask h))]> fs.
Proof.
  unfold os_mkdir. destruct (fault h (Mkdir p)); [done|].
  destruct p as [|c up]; [done|].
  destruct (node_at fs up) as [[m|ct m t]|] eqn:Hup; try done.
  destruct (fs !! (c :: up)) eqn:E; [done|].
  intros [= <-]. split; [done|]. by exists c, up, m.
Qed.

(** The second [os.mkdir] of a directory finds it there. *)
Lemma os_mkdir_again (p : path) (fs fs' : filesystem) :
  os_mkdir h p fs = Return fs' →
  os_mkdir h p fs' = Raise (OSError EEXIST).
Proof.
  intros (Hf & c & up & m & -> & Hup & _ & ->)%os_mkdir_Return_inv.
  unfold os_mkdir. rewrite Hf.
  rewrite node_at_insert_ne by apply cons_ne_self.
  by rewrite Hup, lookup_insert_eq.
Qed.

Lemma Path_mkdir_parents_swallows (p : path) (fs : filesystem) (e : exn) :
  os_mkdir h p fs = Raise e →
  e ≠ OSError ENOENT →
  is_dir fs p = true →
  Path_mkdir_parents h p fs = Return fs.
Proof.
  intros He Hne Hd. rewrite Path_mkdir_parents_eq, He.
  unfold unless_is_dir. rewrite Hd. by destruct e as [[]| | |].
Qed.

Lemma Path_mkdir_leaf_Return_inv (p : path) (fs fs' : filesystem) :
  Path_mkdir_leaf h p fs = Return fs' →
  os_mkdir h p fs = Return fs' ∨
  (fs' = fs ∧ is_dir fs p = true ∧
   ∃ e, os_mkdir h p fs = Raise e ∧ e ≠ OSError ENOENT).
Proof.
  unfold Path_mkdir_leaf. destruct (os_mkdir h p fs) as [fs1|e]; [auto|].
  destruct e as [[]| | |]; try done;
    intros [-> Hd]%unless_is_dir_Return; right; repeat split; eauto.
Qed.

Lemma Path_mkdir_parents_after_os_mkdir (p : path) (fs fs' : filesystem) :
  os_mkdir h p fs = Return fs' →
  Path_mkdir_parents h p fs' = Return fs'.
Proof.
  intros Hm. apply (Path_mkdir_parents_swallows _ _ (OSError EEXIST)).
  - by apply (os_mkdir_again p fs).
  - done.
  - apply os_mkdir_Return in Hm as (_ & -> & c & up & ->).
    eapply is_dir_lookup. apply lookup_insert_eq.
Qed.

(** A second creation finds the directory and leaves everything as it
    is. *)
Lemma Path_mkdir_parents_again (p : path) (fs fs1 : filesystem) :
  Path_mkdir_parents h p fs = Return fs1 →
  Path_mkdir_parents h p fs1 = Return fs1.
Proof.
  intros Hm.
  destruct (Path_mkdir_parents_Return h p fs fs1 Hm) as [Hos|[[-> _]|Hrec]].
  - by apply (Path_mkdir_parents_after_os_mkdir p fs).
  - done.
  - destruct Hrec as (c & up & fs' & -> & _ & Hleaf).
    apply Path_mkdir_leaf_Return_inv in Hleaf
      as [Hos|(-> & Hd & e & He & Hne)].
    + by apply (Path_mkdir_parents_after_os_mkdir _ fs').
    + by apply (Path_mkdir_parents_swallows _ _ e).
Qed.

(** X1.  The creation of the install directory is idempotent: when
    [Path.mkdir(parents=True, exist_ok=True)] has succeeded, the same call
    on the filesystem it left succeeds again and changes nothing, and the
    directory is there. *)
Theorem mkdir_twice (p : path) (fs fs1 : filesystem) :
  Path_mkdir_parents h p fs = Return fs1 →
  Path_mkdir_parents h p fs1 = Return fs1 ∧ is_dir fs1 p = true.
Proof.
  intros Hm. split.
  - by apply (Path_mkdir_parents_again p fs).
  - by apply (Path_mkdir_parents_is_dir h p fs).
Qed.





End MkdirAgain.

(** ** What the installer leaves alone *)

Section InstallerFrame.

Import Setup.

Variable e : Setup.env.
Variable fs : filesystem.

Local Abbreviation system := (lower (platform_system e)).
Local Abbreviation h := (os_host e).
Local Abbreviation r := (run (download_whisper_binary e) fs).

(** The executable names of line 41, 44 and 47. *)
Lemma platform_binary_names (bn en : string) :
  platform_binary system = Some (bn, en) →
  en = "whisper.exe" ∨ en = "whisper".
Proof.
  unfold platform_binary. repeat case_match; intros [= <- <-]; auto.
Qed.

Lemma local_binary_ne_inside_binary_path (bn en bn' : string) :
  platform_binary system = Some (bn, en) →
  local_binary e bn' ≠ binary_path e en </> bn.
Proof.
  intros [-> | ->]%platform_binary_names;
    unfold local_binary, binary_path, install_dir, joinpath;
    intros H; by injection H.
Qed.

(** What a successful [os.chmod] found. *)
Lemma chmod_Return_inv (p : path) (mode : Z) (fs0 fs' : filesystem) :
  chmod h p mode fs0 = Return fs' →
  (∃ m, node_at fs0 p = Some (Dir m) ∧ fs' = <[p := Dir mode]> fs0) ∨
  (∃ content m mtime,
     node_at fs0 p = Some (File content m mtime) ∧
     fs' = <[p := File content mode mtime]> fs0).
Proof.
  unfold chmod. destruct (fault h (Chmod p mode)); [done|].
  destruct (node_at fs0 p) as [[m|content m t]|]; try done;
    intros [= <-]; eauto 6.
Qed.

(** Entries the installer found are still there when it ends, and
    unchanged unless they are the target executable or inside it. *)
Lemma download_keeps (q : path) (n : node) :
  fs !! q = Some n →
  is_Some (files (snd r) !! q) ∧
  ((∀ bn en, platform_binary system = Some (bn, en) →
             q ≠ binary_path e en ∧ q ≠ binary_path e en </> bn) →
   files (snd r) !! q = Some n).
Proof.
  intros Hq. destruct (platform_binary system) as [[bn en]|] eqn:Hs.
  - assert (∀ fs1 fs2 : filesystem,
               copy2 h (local_binary e bn) (binary_path e en) fs1 = Return fs2 →
               (is_Some (fs1 !! q) → is_Some (fs2 !! q)) ∧
               (q ≠ binary_path e en → q ≠ binary_path e en </> bn →
                fs2 !! q = fs1 !! q)) as Hcp.
    { intros fs1 fs2 (c & m & t & _ & ->)%copy2_Return. split.
      - intros Hs1. rewrite lookup_insert. by case_decide.
      - intros H1 H2. apply lookup_insert_ne. unfold copy2_target.
        destruct (is_dir fs1 (binary_path e en));
          [change (basename (local_binary e bn)) with bn|]; congruence. }
    assert (∀ fs2 fs3 : filesystem,
               chmod h (binary_path e en) mode_0o755 fs2 = Return fs3 →
               (is_Some (fs2 !! q) → is_Some (fs3 !! q)) ∧
               (q ≠ binary_path e en → fs3 !! q = fs2 !! q)) as Hcm.
    { intros fs2 fs3 (n' & ->)%chmod_Return. split.
      - intros Hs2. rewrite lookup_insert. by case_decide.
      - intros H1. apply lookup_insert_ne. congruence. }
    assert (∀ fs1 : filesystem,
               Path_mkdir_parents h (install_dir e) fs = Return fs1 →
               fs1 !! q = Some n) as Hmk
      by eauto using Path_mkdir_parents_keeps.
    download_cases e fs bn en Hs; cbn [snd files].
    + specialize (Hmk _ eq_refl). destruct (Hcp _ _ Hcopy) as [H1 H2].
      split; [by apply H1; rewrite Hmk|].
      intros H. destruct (H _ _ eq_refl). by rewrite H2.
    + specialize (Hmk _ eq_refl). destruct (Hcp _ _ Hcopy) as [H1 H2].
      destruct (Hcm _ _ Hchmod) as [H3 H4].
      split; [by apply H3, H1; rewrite Hmk|].
      intros H. destruct (H _ _ eq_refl). by rewrite H4, H2.
    + specialize (Hmk _ eq_refl). destruct (Hcp _ _ Hcopy) as [H1 H2].
      split; [by apply H1; rewrite Hmk|].
      intros H. destruct (H _ _ eq_refl). by rewrite H2.
    + specialize (Hmk _ eq_refl). by rewrite Hmk.
    + specialize (Hmk _ eq_refl). by rewrite Hmk.
    + by rewrite Hq.
  - rewrite (download_unsupported e fs Hs). cbn [snd files]. by rewrite Hq.
Qed.

(** X3.  The installer removes nothing: every path that has an entry
    before a run has one after it, and the entry is the same unless the
    path is the target executable or lies directly inside it. *)
Theorem installer_removes_nothing (q : path) (n : node) :
  fs !! q = Some n →
  is_Some (files (snd r) !! q) ∧
  ((∀ bn en, platform_binary system = Some (bn, en) →
             q ≠ binary_path e en ∧ q ≠ binary_path e en </> bn) →
   files (snd r) !! q = Some n).
Proof. apply download_keeps. Qed.

(** X4.  The installer copies the source artifact and does not move it:
    whatever is at the artifact's path before a run is there, unchanged,
    after it. *)
Theorem source_artifact_is_kept (bn en : string) (n : node) :
  platform_binary system = Some (bn, en) →
  fs !! local_binary e bn = Some n →
  files (snd r) !! local_binary e bn = Some n.
Proof.
  intros Hs Hq. apply (download_keeps _ _ Hq).
  intros bn' en' Hs'. split.
  - apply local_binary_ne_binary_path.
  - by apply local_binary_ne_inside_binary_path.
Qed.

(** X5.  The installer writes only in its own place: a path that is
    neither the install directory or above it, nor the target executable,
    nor directly inside the target, has after a run what it had before,
    entry or none. *)
Theorem installer_footprint (q : path) :
  (∀ bn en, platform_binary system = Some (bn, en) →
            ¬ q `suffix_of` install_dir e ∧
            q ≠ binary_path e en ∧
            q ≠ binary_path e en </> bn) →
  files (snd r) !! q = fs !! q.
Proof. apply download_frame. Qed.

(** X6.  The writing calls of a run come in one order: the creation of
    the install directory, then the copy, then the change of permission
    bits, each only after the one before it; a run on Windows makes no
    change of permission bits. *)
Theorem write_calls_in_order (bn en : string) :
  platform_binary system = Some (bn, en) →
  filter is_write (trace (snd r)) `prefix_of`
    [ECall (Mkdir (install_dir e));
     ECall (Copy2 (local_binary e bn) (binary_path e en));
     ECall (Chmod (binary_path e en) mode_0o755)] ∧
  (system = "windows" →
   ECall (Chmod (binary_path e en) mode_0o755) ∉ trace (snd r)).
Proof.
  intros Hs.
  download_cases e fs bn en Hs; cbn [snd trace]; split;
    try (intros _; rewrite !not_elem_of_cons; repeat split; try done;
         apply not_elem_of_nil);
    try done.
  - by exists [ECall (Chmod (binary_path e en) mode_0o755)].
  - by exists [ECall (Chmod (binary_path e en) mode_0o755)].
  - by exists [ECall (Copy2 (local_binary e bn) (binary_path e en));
               ECall (Chmod (binary_path e en) mode_0o755)].
  - by exists [ECall (Copy2 (local_binary e bn) (binary_path e en));
               ECall (Chmod (binary_path e en) mode_0o755)].
Qed.

End InstallerFrame.

(** ** What the installer reports *)

Section InstallerReports.

Import Setup.

Variable e : Setup.env.
Variable fs : filesystem.

Local Abbreviation system := (lower (platform_system e)).
Local Abbreviation h := (os_host e).
Local Abbreviation r := (run (download_whisper_binary e) fs).


(** X8.  A reported success is real: when the line that announces the
    installation is printed, the run has returned normally, the source
    artifact is a regular file, and its contents and modification time are
    those of the target executable, or, when a directory is in the place
    of the target, of the entry with the artifact's name inside that
    directory. *)
Theorem reported_success_is_real (bn en : string) :
  platform_binary system = Some (bn, en) →
  EPrint MsgInstalled ∈ trace (snd r) →
  fst r = Return tt ∧
  ∃ content mode mtime mode',
    files (snd r) !! local_binary e bn = Some (File content mode mtime) ∧
    (files (snd r) !! binary_path e en = Some (File content mode' mtime) ∨
     (files (snd r) !! binary_path e en = Some (Dir mode') ∧
      files (snd r) !! (binary_path e en </> bn)
        = Some (File content mode mtime))).
Proof.
  intros Hs.
  assert (local_binary e bn ≠ binary_path e en) as Hne1
    by apply local_binary_ne_binary_path.
  assert (local_binary e bn ≠ binary_path e en </> bn) as Hne2
    by (by apply local_binary_ne_inside_binary_path).
  assert (binary_path e en ≠ binary_path e en </> bn) as Hne3
    by (intros H; symmetry in H; by apply cons_ne_self in H).
  assert (∀ fs1 fs2 : filesystem,
             copy2 h (local_binary e bn) (binary_path e en) fs1 = Return fs2 →
             ∃ content mode mtime,
               fs2 !! local_binary e bn = Some (File content mode mtime) ∧
               (fs2 !! binary_path e en = Some (File content mode mtime) ∨
                ∃ m, fs2 !! binary_path e en = Some (Dir m) ∧
                     fs2 !! (binary_path e en </> bn)
                       = Some (File content mode mtime))) as Hcp.
  { intros fs1 fs2 (c & m & t & Hsrc & ->)%copy2_Return.
    exists c, m, t. unfold copy2_target, is_dir.
    change (node_at fs1 (binary_path e en)) with (fs1 !! binary_path e en).
    change (node_at fs1 (local_binary e bn))
      with (fs1 !! local_binary e bn) in Hsrc.
    change (basename (local_binary e bn)) with bn.
    destruct (fs1 !! binary_path e en) as [[m0|c0 m0 t0]|] eqn:Hdst.
    - rewrite lookup_insert_ne by done. split; [done|]. right. exists m0.
      rewrite lookup_insert_ne by done. by rewrite lookup_insert_eq.
    - rewrite lookup_insert_ne by done. split; [done|]. left.
      by rewrite lookup_insert_eq.
    - rewrite lookup_insert_ne by done. split; [done|]. left.
      by rewrite lookup_insert_eq. }
  download_cases e fs bn en Hs; cbn [fst snd files trace];
    rewrite ?elem_of_cons, elem_of_nil; intros Hin;
    try (exfalso; intuition discriminate).
  - split; [done|]. destruct (Hcp _ _ Hcopy) as (c & m & t & H1 & [H2|[m0 H2]]).
    + exists c, m, t, m. auto.
    + exists c, m, t, m0. auto.
  - split; [done|]. destruct (Hcp _ _ Hcopy) as (c & m & t & H1 & H2).
    apply chmod_Return_inv in Hchmod as [(m1 & Hn & ->)|(c1 & m1 & t1 & Hn & ->)];
      change (node_at fs2 (binary_path e en))
        with (fs2 !! binary_path e en) in Hn.
    + destruct H2 as [H2|[m0 [_ H2]]]; [congruence|].
      exists c, m, t, mode_0o755.
      rewrite lookup_insert_ne by done. split; [done|]. right.
      rewrite lookup_insert_eq. by rewrite lookup_insert_ne.
    + destruct H2 as [H2|[m0 [H2 _]]]; [|congruence].
      rewrite H2 in Hn. injection Hn as <- <- <-.
      exists c, m, t, mode_0o755.
      rewrite lookup_insert_ne by done. split; [done|]. left.
      by rewrite lookup_insert_eq.
Qed.


(** X13.  A run that returns normally has said how it ended: its last
    two lines are the warning and the fallback instruction of an
    unsupported platform, or the two hints at the missing build, or the
    diagnostic and the manual remedy of a caught failure, or the two lines
    of a successful installation. *)
Theorem every_return_is_explained :
  fst r = Return tt →
  ∃ (t : list event) (m1 m2 : message),
    trace (snd r) = (t ++ [EPrint m1; EPrint m2])%list ∧
    ((m1 = MsgUnsupportedPlatform system ∧ m2 = MsgUseNpm) ∨
     (m1 = MsgLocalNotFound ∧ m2 = MsgBuildStandalone) ∨
     (∃ ex, m1 = MsgDownloadFailed ex ∧ m2 = MsgInstallManually) ∨
     (m1 = MsgInstalled ∧ m2 = MsgUsage)).
Proof.
  destruct (platform_binary system) as [[bn en]|] eqn:Hs.
  - download_cases e fs bn en Hs; cbn [fst snd trace]; intros Hr; try done.
    + eexists [_; _; _; _; _], _, _. split; [reflexivity|]. auto.
    + eexists [_; _; _; _; _; _], _, _. split; [reflexivity|]. auto.
    + eexists [_; _; _; _; _; _], _, _. split; [reflexivity|]. eauto 6.
    + eexists [_; _; _; _], _, _. split; [reflexivity|]. eauto 6.
    + eexists [_; _; _], _, _. split; [reflexivity|]. auto.
  - rewrite (download_unsupported e fs Hs). cbn [fst snd trace]. intros _.
    eexists [], _, _. split; [reflexivity|]. auto.
Qed.

End InstallerReports.

(** ** More on the launcher *)

Section LauncherExtras.

Import Cli.

Variable e : Cli.env.
Variable fs : filesystem.

Local Abbreviation cli_path := (get_whisper_cli_path e).
Local Abbreviation argv := (fspath e cli_path :: skipn 1 (sys_argv e)).

(** X9.  The launcher exits with status 0 exactly when the binary exists
    and the child is spawned and ends with status 0; in every other run,
    including one in which the binary cannot be executed, it exits with
    status 1. *)
Theorem launcher_exit_status :
  (exit_status (fst (run (main e) fs)) = 0 ↔
   path_exists fs cli_path = true ∧ child e argv = Completed 0) ∧
  (exit_status (fst (run (main e) fs)) = 0 ∨
   exit_status (fst (run (main e) fs)) = 1).
Proof.
  destruct (path_exists fs cli_path) eqn:Hx.
  - rewrite (main_found e fs Hx). cbn [fst].
    destruct (child e argv) as [rc|err]; cbn [exit_status].
    + destruct (Z.eqb_spec rc 0) as [->|Hrc]; cbn [exit_status].
      * split; [done|]. by left.
      * split; [|by right]. split; [done|]. intros [_ [=]]. done.
    + split; [|by right]. split; [done|]. by intros [_ [=]].
  - rewrite (main_not_found e fs Hx). cbn [fst exit_status].
    split; [|by right]. split; [done|]. by intros [[=] _].
Qed.


End LauncherExtras.

(** ** Statements and the trace *)

Section Appends.


Lemma appends_raise {A} (ex : exn) : appends (@raise A ex).
Proof. intros fs t. unfold raise. cbn. by rewrite app_nil_r. Qed.








End Appends.

(** ** The install command as a whole *)

Section InstallCommand.

Import Setup.

Variable install_run : M unit.
Variable e : Setup.env.
Variable fs : filesystem.

Local Abbreviation system := (lower (platform_system e)).
Local Abbreviation h := (os_host e).
Local Abbreviation standard := (run install_run fs).
Local Abbreviation whole := (run (WhisperInstall_run install_run e) fs).


End InstallCommand.

(** ** The shape of the filesystem *)

Section WellFormed.

Variable h : host.

Lemma well_formed_insert_dir (fs : filesystem) (c : string) (up : path) (m : Z) :
  well_formed fs → is_dir fs up = true →
  well_formed (<[c :: up := Dir m]> fs).
Proof.
  intros Hwf Hup c' p' Hs.
  destruct (decide (p' = c :: up)) as [->|Hp].
  - eapply is_dir_lookup. apply lookup_insert_eq.
  - rewrite is_dir_insert_ne by done.
    destruct (decide (c' :: p' = c :: up)) as [[= -> ->]|Hne]; [done|].
    rewrite lookup_insert_ne in Hs by done. by apply (Hwf c').
Qed.

Lemma well_formed_insert_file (fs : filesystem) (q : path)
    (content : list Byte.byte) (m t : Z) :
  well_formed fs → is_dir fs (parent q) = true → is_dir fs q = false →
  well_formed (<[q := File content m t]> fs).
Proof.
  intros Hwf Hup Hq c' p' Hs.
  destruct (decide (p' = q)) as [->|Hp].
  - destruct (decide (c' :: q = q)) as [Heq|Hne];
      [by apply cons_ne_self in Heq|].
    rewrite lookup_insert_ne in Hs by done.
    apply Hwf in Hs. congruence.
  - rewrite is_dir_insert_ne by done.
    destruct (decide (c' :: p' = q)) as [<-|Hne]; [done|].
    rewrite lookup_insert_ne in Hs by done. by apply (Hwf c').
Qed.

Lemma well_formed_os_mkdir (p : path) (fs fs' : filesystem) :
  well_formed fs → os_mkdir h p fs = Return fs' → well_formed fs'.
Proof.
  intros Hwf (_ & c & up & m & -> & Hup & _ & ->)%os_mkdir_Return_inv.
  apply well_formed_insert_dir; [done|]. unfold is_dir. by rewrite Hup.
Qed.

Lemma well_formed_mkdir (p : path) (fs fs' : filesystem) :
  well_formed fs → Path_mkdir_parents h p fs = Return fs' → well_formed fs'.
Proof.
  revert fs fs'. induction p as [|c up IH]; intros fs fs' Hwf Hm.
  - apply Path_mkdir_parents_Return in Hm as [Hm|[[-> _]|Hm]]; [|done|].
    + by apply (well_formed_os_mkdir [] fs).
    + by destruct Hm as (? & ? & ? & ? & _).
  - apply Path_mkdir_parents_Return in Hm as [Hm|[[-> _]|Hm]]; [|done|].
    + by apply (well_formed_os_mkdir (c :: up) fs).
    + destruct Hm as (c' & up' & fs1 & [= <- <-] & Hup & Hleaf).
      specialize (IH _ _ Hwf Hup).
      apply Path_mkdir_leaf_Return in Hleaf as [Hm|[-> _]]; [|done].
      by apply (well_formed_os_mkdir (c :: up) fs1).
Qed.

Lemma well_formed_copy2 (src dst : path) (fs fs' : filesystem) :
  well_formed fs → copy2 h src dst fs = Return fs' → well_formed fs'.
Proof.
  intros Hwf. unfold copy2. destruct (fault h (Copy2 src dst)); [done|].
  destruct (samefile fs src (copy2_target fs src dst)); [done|].
  destruct (node_at fs src) as [[m|content m t]|]; try done.
  destruct (node_at fs (parent (copy2_target fs src dst)))
    as [[m'|? ? ?]|] eqn:Hup; try done.
  destruct (node_at fs (copy2_target fs src dst)) as [[m''|? ? ?]|] eqn:Hdst;
    try done; intros [= <-];
    (apply well_formed_insert_file; [done| |]; unfold is_dir;
     [by rewrite Hup | by rewrite Hdst]).
Qed.

Lemma well_formed_chmod (p : path) (mode : Z) (fs fs' : filesystem) :
  well_formed fs → chmod h p mode fs = Return fs' → well_formed fs'.
Proof.
  intros Hwf. unfold chmod. destruct (fault h (Chmod p mode)); [done|].
  destruct (node_at fs p) as [[m|content m t]|] eqn:Hp; try done;
    intros [= <-].
  - destruct p as [|c up].
    + intros c' p' Hs.
      destruct (decide (p' = [])) as [->|Hne]; [done|].
      rewrite is_dir_insert_ne by done.
      rewrite lookup_insert_ne in Hs by done. by apply (Hwf c').
    + apply well_formed_insert_dir; [done|]. apply (Hwf c).
      rewrite node_at_cons in Hp. by rewrite Hp.
  - destruct p as [|c up]; [done|].
    rewrite node_at_cons in Hp.
    intros c' p' Hs.
    destruct (decide (p' = c :: up)) as [->|Hne].
    + destruct (decide (c' :: c :: up = c :: up)) as [Heq|Hne'];
        [by apply cons_ne_self in Heq|].
      rewrite lookup_insert_ne in Hs by done. apply Hwf in Hs.
      unfold is_dir in Hs. rewrite node_at_cons, Hp in Hs. done.
    + rewrite is_dir_insert_ne by done.
      destruct (decide (c' :: p' = c :: up)) as [[= -> ->]|Hne'].
      * apply (Hwf c). by rewrite Hp.
      * rewrite lookup_insert_ne in Hs by done. by apply (Hwf c').
Qed.

End WellFormed.

(** X12.  The installer keeps the filesystem well formed: when every
    entry lies in a directory before a run, every entry lies in a
    directory after it, whatever the run did and however it ended.  In
    particular the installer never puts a file in the place of a directory
    that has entries, nor an entry below something that is not a
    directory. *)
Theorem installer_keeps_well_formed (e : Setup.env) (fs : filesystem) :
  well_formed fs →
  well_formed (files (snd (run (Setup.download_whisper_binary e) fs))).
Proof.
  intros Hwf.
  destruct (Setup.platform_binary (lower (Setup.platform_system e)))
    as [[bn en]|] eqn:Hs.
  - download_cases e fs bn en Hs; cbn [snd files];
      eauto using well_formed_mkdir, well_formed_copy2, well_formed_chmod.
  - by rewrite (download_unsupported e fs Hs).
Qed.

(** ** The further properties on the sample installations *)

(** [mkdir_twice] where nothing is installed yet. *)
Lemma mkdir_twice_witness :
  Path_mkdir_parents quiet_host (Setup.install_dir linux_env) fs_fresh
    = Return (with_install_dir fs_fresh) ∧
  Path_mkdir_parents quiet_host (Setup.install_dir linux_env)
    (with_install_dir fs_fresh) = Return (with_install_dir fs_fresh).
Proof.
  assert (Path_mkdir_parents quiet_host (Setup.install_dir linux_env) fs_fresh
          = Return (with_install_dir fs_fresh)) as Hm
    by (vm_compute; reflexivity).
  split; [exact Hm|].
  exact (proj1 (mkdir_twice quiet_host _ _ _ Hm)).
Defined.


(** [installer_removes_nothing] on the executable an earlier installation
    left, when the artifact is built again. *)
Lemma installer_removes_nothing_witness :
  fs_stale !! ["site"] = Some (Dir 493) ∧
  files (snd (run (Setup.download_whisper_binary linux_env) fs_stale))
    !! ["site"] = Some (Dir 493).
Proof.
  assert (fs_stale !! ["site"] = Some (Dir 493)) as Hq
    by (vm_compute; reflexivity).
  split; [exact Hq|].
  apply (installer_removes_nothing linux_env fs_stale _ _ Hq).
  intros bn en _. split; intros H; by injection H.
Defined.

(** [source_artifact_is_kept] on Linux after a build. *)
Lemma source_artifact_is_kept_witness :
  (Setup.platform_binary (lower (Setup.platform_system linux_env))
     = Some ("whisper-linux", "whisper") ∧
   fs_built !! Setup.local_binary linux_env "whisper-linux"
     = Some built_artifact) ∧
  files (snd (run (Setup.download_whisper_binary linux_env) fs_built))
    !! ["whisper-linux"; "dist"; "repo"] = Some built_artifact.
Proof.
  assert (Setup.platform_binary (lower (Setup.platform_system linux_env))
          = Some ("whisper-linux", "whisper")) as Hs by reflexivity.
  assert (fs_built !! Setup.local_binary linux_env "whisper-linux"
          = Some built_artifact) as Hq by (vm_compute; reflexivity).
  split; [done|].
  exact (source_artifact_is_kept linux_env fs_built _ _ _ Hs Hq).
Defined.

(** [installer_footprint] on the launcher beside the package. *)
Lemma installer_footprint_witness :
  files (snd (run (Setup.download_whisper_binary linux_env) fs_built))
    !! ["cli.py"; "whisper_cli"; "site"]
  = fs_built !! ["cli.py"; "whisper_cli"; "site"].
Proof.
  apply (installer_footprint linux_env fs_built).
  intros bn en _. repeat split.
  - intros [H|[H|H%suffix_length]%suffix_cons_inv]%suffix_cons_inv.
    + by injection H.
    + by injection H.
    + simpl in H. lia.
  - intros H. by injection H.
  - intros H. by injection H.
Defined.

(** [write_calls_in_order] on Linux after a build. *)
Lemma write_calls_in_order_witness :
  Setup.platform_binary (lower (Setup.platform_system linux_env))
    = Some ("whisper-linux", "whisper") ∧
  filter is_write
    (trace (snd (run (Setup.download_whisper_binary linux_env) fs_built)))
  `prefix_of`
    [ECall (Mkdir ["bin"; "whisper_cli"; "site"]);
     ECall (Copy2 ["whisper-linux"; "dist"; "repo"]
                  ["whisper"; "bin"; "whisper_cli"; "site"]);
     ECall (Chmod ["whisper"; "bin"; "whisper_cli"; "site"] 493)].
Proof.
  assert (Setup.platform_binary (lower (Setup.platform_system linux_env))
          = Some ("whisper-linux", "whisper")) as Hs by reflexivity.
  split; [exact Hs|].
  exact (proj1 (write_calls_in_order linux_env fs_built _ _ Hs)).
Defined.


(** [reported_success_is_real] on Linux after a build. *)
Lemma reported_success_is_real_witness :
  (Setup.platform_binary (lower (Setup.platform_system linux_env))
     = Some ("whisper-linux", "whisper") ∧
   EPrint MsgInstalled
     ∈ trace (snd (run (Setup.download_whisper_binary linux_env) fs_built))) ∧
  fst (run (Setup.download_whisper_binary linux_env) fs_built) = Return tt.
Proof.
  assert (Setup.platform_binary (lower (Setup.platform_system linux_env))
          = Some ("whisper-linux", "whisper")) as Hs by reflexivity.
  assert (EPrint MsgInstalled
            ∈ trace (snd (run (Setup.download_whisper_binary linux_env)
                            fs_built))) as Hin.
  { replace (trace (snd (run (Setup.download_whisper_binary linux_env) fs_built)))
      with [ECall (Mkdir ["bin"; "whisper_cli"; "site"]);
            EPrint (MsgDownloading "linux");
            ECall (Exists ["whisper-linux"; "dist"; "repo"]);
            ECall (Copy2 ["whisper-linux"; "dist"; "repo"]
                         ["whisper"; "bin"; "whisper_cli"; "site"]);
            EPrint (MsgCopiedLocal ["whisper"; "bin"; "whisper_cli"; "site"]);
            ECall (Chmod ["whisper"; "bin"; "whisper_cli"; "site"] 493);
            EPrint MsgInstalled;
            EPrint MsgUsage]
      by (vm_compute; reflexivity).
    do 6 apply list_elem_of_further. apply list_elem_of_here. }
  split; [done|].
  exact (proj1 (reported_success_is_real linux_env fs_built _ _ Hs Hin)).
Defined.

(** [launcher_exit_status] on [whisper scan] beside its executable. *)
Lemma launcher_exit_status_witness :
  (path_exists fs_beside_launcher (Cli.get_whisper_cli_path scan_launch) = true ∧
   Cli.child scan_launch
     (Cli.fspath scan_launch (Cli.get_whisper_cli_path scan_launch)
        :: skipn 1 (Cli.sys_argv scan_launch)) = Cli.Completed 0) ∧
  exit_status (fst (run (Cli.main scan_launch) fs_beside_launcher)) = 0.
Proof.
  assert (path_exists fs_beside_launcher (Cli.get_whisper_cli_path scan_launch)
            = true ∧
          Cli.child scan_launch
            (Cli.fspath scan_launch (Cli.get_whisper_cli_path scan_launch)
               :: skipn 1 (Cli.sys_argv scan_launch)) = Cli.Completed 0) as H
    by (split; vm_compute; reflexivity).
  split; [exact H|].
  exact (proj2 (proj1 (launcher_exit_status scan_launch fs_beside_launcher)) H).
Defined.


Lemma fs_fresh_well_formed : well_formed fs_fresh.
Proof.
  intros c p [n Hn]. apply elem_of_map_to_list in Hn.
  replace (map_to_list fs_fresh)
    with [(["python-wrapper"; "repo"], Dir 493);
          (["repo"], Dir 493);
          (["site"], Dir 493)] in Hn by (vm_compute; reflexivity).
  rewrite !elem_of_cons, elem_of_nil in Hn.
  destruct Hn as [[= -> -> _]|[[= -> -> _]|[[= -> -> _]|[]]]];
    vm_compute; reflexivity.
Defined.

(** [installer_keeps_well_formed] where nothing is installed yet. *)
Lemma installer_keeps_well_formed_witness :
  well_formed fs_fresh ∧
  well_formed (files (snd (run (Setup.download_whisper_binary linux_env) fs_fresh))).
Proof.
  split; [exact fs_fresh_well_formed|].
  exact (installer_keeps_well_formed linux_env fs_fresh fs_fresh_well_formed).
Defined.

(** [every_return_is_explained] on Linux with nothing built. *)
Lemma every_return_is_explained_witness :
  fst (run (Setup.download_whisper_binary linux_env) fs_fresh) = Return tt ∧
  ∃ (t : list event) (m1 m2 : message),
    trace (snd (run (Setup.download_whisper_binary linux_env) fs_fresh))
      = (t ++ [EPrint m1; EPrint m2])%list.
Proof.
  assert (fst (run (Setup.download_whisper_binary linux_env) fs_fresh)
          = Return tt) as Hr by (vm_compute; reflexivity).
  split; [exact Hr|].
  destruct (every_return_is_explained linux_env fs_fresh Hr)
    as (t & m1 & m2 & Ht & _).
  by exists t, m1, m2.
Defined.

(** A refused standard installation ends the install command before the
    binary setup. *)
Example refused_install_skips_binary_setup :
  run (WhisperInstall_run refused_install linux_env) fs_built
  = (Raise (OSError EACCES), World fs_built []).
Proof. reflexivity. Qed.

(** A directory in the place of the target executable: the artifact is
    copied into it, the directory gets the permission bits, and success is
    reported. *)
Example directory_in_place_of_target :
  let fs := <[ ["whisper"; "bin"; "whisper_cli"; "site"] := Dir 448 ]>
              (with_install_dir fs_built) in
  let installed := run (Setup.download_whisper_binary linux_env) fs in
  fst installed = Return tt ∧
  files (snd installed) !! ["whisper"; "bin"; "whisper_cli"; "site"]
    = Some (Dir 493) ∧
  files (snd installed)
    !! ["whisper-linux"; "whisper"; "bin"; "whisper_cli"; "site"]
    = Some built_artifact ∧
  filter is_print (trace (snd installed)) =
    [EPrint (MsgDownloading "linux");
     EPrint (MsgCopiedLocal ["whisper"; "bin"; "whisper_cli"; "site"]);
     EPrint MsgInstalled;
     EPrint MsgUsage].
Proof. by vm_compute. Qed.
